(** * A model of the finance dashboard (app.py)

    The development follows app.py function by function:
    - the fragment of pandas that [analyze_transactions] uses (column
      membership, column selection, boolean masks, [sum], [iloc[-1]]);
    - [analyze_transactions] and [store_transaction_data];
    - the sign-up and login handlers of [main], over an abstract bcrypt;
    - [recommendations_page] and the page dispatch of [main].

    Scope of the model.  A column read from a CSV file is either numeric or
    textual.  Numeric cells are exact integers ([Z]): rounding of floating
    point cells and the fixed width of int64 are not represented.  Encoding
    to JSON, reading the clock and writing a file are taken to succeed.
    bcrypt is an interface.  The sidebar is left out, and a chart is a
    widget without content. *)

From Stdlib Require Import ZArith QArith DecimalString.
From stdpp Require Import gmap strings list fin_maps.

Local Open Scope string_scope.
Local Open Scope list_scope.
Local Open Scope Z_scope.

(** ** Exceptions and results *)

Inductive Exn :=
| ValueError (msg : string)
| IndexError (msg : string)
| KeyError (msg : string)
| TypeError (msg : string).

(** [str(e)] as it is interpolated into an f-string. *)
Definition str_exn (e : Exn) : string :=
  match e with
  | ValueError m | IndexError m | TypeError m => m
  | KeyError m => "'" +:+ m +:+ "'"
  end.

Inductive Result (A : Type) :=
| Return (a : A)
| Raise (e : Exn).
Arguments Return {A} a.
Arguments Raise {A} e.

#[global] Instance Result_ret : MRet Result := λ A a, Return a.
#[global] Instance Result_bind : MBind Result := λ A B f r,
  match r with
  | Return a => f a
  | Raise e => Raise e
  end.
#[global] Instance Result_fmap : FMap Result := λ A B f r,
  match r with
  | Return a => Return (f a)
  | Raise e => Raise e
  end.

(** ** The pandas fragment *)

Module Pandas.

(** A scalar taken out of a frame: a number or a string. *)
Inductive Scalar :=
| SInt (z : Z)
| SStr (s : string).

(** A column: numeric dtype or object dtype holding strings. *)
Inductive Series :=
| IntSeries (xs : list Z)
| ObjSeries (xs : list string).

(** A frame is its columns in file order.  [read_csv] makes the names
    distinct and all columns equally long. *)
Definition DataFrame : Type := list (string * Series).

Definition cells (s : Series) : list Scalar :=
  match s with
  | IntSeries xs => SInt <$> xs
  | ObjSeries xs => SStr <$> xs
  end.

Definition size (s : Series) : nat := length (cells s).

(** [data.columns] *)
Definition columns (data : DataFrame) : list string := data.*1.

(** [c in data.columns] *)
Definition has_column (c : string) (data : DataFrame) : bool :=
  bool_decide (c ∈ columns data).

(** [data[c]] *)
Fixpoint getitem (data : DataFrame) (c : string) : Result Series :=
  match data with
  | [] => Raise (KeyError c)
  | (c', s) :: rest => if String.eqb c' c then Return s else getitem rest c
  end.

(** [s == v] for a string [v]: element-wise, and false on every cell of a
    numeric column. *)
Definition eq_str (s : Series) (v : string) : list bool :=
  match s with
  | IntSeries xs => (λ _, false) <$> xs
  | ObjSeries xs => (λ x, String.eqb x v) <$> xs
  end.

(** Selection of the positions at which the mask holds. *)
Fixpoint select {A} (mask : list bool) (xs : list A) : list A :=
  match mask, xs with
  | b :: mask', x :: xs' => if b then x :: select mask' xs' else select mask' xs'
  | _, _ => []
  end.

Definition select_series (mask : list bool) (s : Series) : Series :=
  match s with
  | IntSeries xs => IntSeries (select mask xs)
  | ObjSeries xs => ObjSeries (select mask xs)
  end.

(** [data[mask]]: the rows at which the mask holds, in every column. *)
Definition getitem_mask (data : DataFrame) (mask : list bool) : DataFrame :=
  prod_map id (select_series mask) <$> data.

Definition Zsum (xs : list Z) : Z := foldr Z.add 0 xs.

(** [s.sum()]: the sum of a numeric column; on an object column the
    strings are added, that is concatenated, and the empty sum is 0. *)
Definition sum (s : Series) : Scalar :=
  match s with
  | IntSeries xs => SInt (Zsum xs)
  | ObjSeries [] => SInt 0
  | ObjSeries xs => SStr (String.concat "" xs)
  end.

(** [s.iloc[-1]] *)
Definition iloc_last (s : Series) : Result Scalar :=
  match last (cells s) with
  | Some v => Return v
  | None => Raise (IndexError "single positional indexer is out-of-bounds")
  end.

(** Whether [data.select_dtypes(include=["float", "int"])] keeps a column. *)
Definition has_numeric_column (data : DataFrame) : bool :=
  existsb (λ c, match c.2 with IntSeries _ => true | ObjSeries _ => false end) data.

(** Number of rows: the length of the index. *)
Definition nrows (data : DataFrame) : nat :=
  match data with
  | [] => 0%nat
  | (_, s) :: _ => size s
  end.

(** [data.to_dict(orient="records")]: one record per row. *)
Definition to_dict_records (data : DataFrame) : list (list (string * Scalar)) :=
  (λ i, omap (λ '(c, s), pair c <$> (cells s !! i)) data) <$> seq 0 (nrows data).

End Pandas.
Import Pandas.

(** ** analyze_transactions *)

Definition columns_missing : string :=
  "Dataset must contain 'DrCr' and 'balance' columns.".

Definition analyze_transactions (data : DataFrame) : Result (Scalar * Scalar * Scalar) :=
  if has_column "DrCr" data && has_column "balance" data then
    cr ← getitem data "DrCr";
    credit ← getitem (getitem_mask data (eq_str cr "Cr")) "balance";
    let incoming := sum credit in
    db ← getitem data "DrCr";
    debit ← getitem (getitem_mask data (eq_str db "Db")) "balance";
    let outgoing := sum debit in
    balance ← getitem data "balance";
    total_balance ← iloc_last balance;
    mret (total_balance, incoming, outgoing)
  else Raise (ValueError columns_missing).

(** ** Storage

    Both documents hold a dictionary keyed by the user id.  A file that
    does not exist yet is [None]. *)

Record UserProfile := {
  name : string;
  email : string;
  password : string  (* the bcrypt hash *)
}.

Record HistoryEntry := {
  transactions : list (list (string * Scalar));
  total_balance : Scalar;
  total_credit : Scalar;
  total_debit : Scalar;
  timestamp : string
}.

(** A figure: the donut of total credit against total debit on the
    profile page, or the chart of the uploaded data, whose form follows the
    choices made in the sidebar. *)
Inductive Figure :=
| Donut (total_credit total_debit : Scalar)
| DataChart.

(** What a run of the script puts on the page.  The sidebar is not part
    of it. *)
Inductive Widget :=
| st_title (s : string)
| st_markdown (s : string)
| st_success (s : string)
| st_warning (s : string)
| st_error (s : string)
| st_write (s : string)
| st_dataframe (data : DataFrame)
| st_plotly_chart (fig : Figure)
| st_exception (e : Exn).

Record World := {
  user_data : gmap string UserProfile;
  transaction_logs : gmap string (list HistoryEntry);
  user_data_file : option (gmap string UserProfile);
  transaction_log_file : option (gmap string (list HistoryEntry));
  session_user_id : option string;
  screen : list Widget
}.

Definition show (m : Widget) (w : World) : World :=
  {| user_data := user_data w;
     transaction_logs := transaction_logs w;
     user_data_file := user_data_file w;
     transaction_log_file := transaction_log_file w;
     session_user_id := session_user_id w;
     screen := screen w ++ [m] |}.

(** [load_json]: a missing file is first created holding [{}]. *)
Definition load_json {A} (file : option (gmap string A)) :
    gmap string A * option (gmap string A) :=
  match file with
  | None => (∅, Some ∅)
  | Some doc => (doc, Some doc)
  end.

(** [save_json]: the file is rewritten with the whole dictionary. *)
Definition save_json {A} (data : gmap string A) : option (gmap string A) :=
  Some data.

(** The module-level statements: both dictionaries are loaded. *)
Definition startup (w : World) : World :=
  let '(users, users_file) := load_json (user_data_file w) in
  let '(logs, logs_file) := load_json (transaction_log_file w) in
  {| user_data := users;
     transaction_logs := logs;
     user_data_file := users_file;
     transaction_log_file := logs_file;
     session_user_id := session_user_id w;
     screen := [] |}.

(** ** Formatting *)

Definition str_Z (z : Z) : string := NilZero.string_of_int (Z.to_int z).

(** A scalar interpolated into an f-string. *)
Definition fmt (v : Scalar) : string :=
  match v with
  | SInt z => str_Z z
  | SStr s => s
  end.

(** [s.endswith(suffix)] *)
Definition endswith (s suffix : string) : bool :=
  String.prefix (String.rev suffix) (String.rev s).

(** ** store_transaction_data *)

Definition new_entry (data : DataFrame) (r : Scalar * Scalar * Scalar) (now : string) :
    HistoryEntry :=
  let '(balance, incoming, outgoing) := r in
  {| transactions := to_dict_records data;
     total_balance := balance;
     total_credit := incoming;
     total_debit := outgoing;
     timestamp := now |}.

(** [now] is the value of [datetime.now().isoformat()] at the call. *)
Definition store_transaction_data (user_id : string) (data : DataFrame) (now : string)
    (w : World) : World :=
  match analyze_transactions data with
  | Return (balance, incoming, outgoing) =>
      let logs :=
        match transaction_logs w !! user_id with
        | None => <[user_id := []]> (transaction_logs w)
        | Some _ => transaction_logs w
        end in
      let logs := <[user_id := default [] (logs !! user_id)
                                 ++ [new_entry data (balance, incoming, outgoing) now]]> logs in
      let w := {| user_data := user_data w;
                  transaction_logs := logs;
                  user_data_file := user_data_file w;
                  transaction_log_file := save_json logs;
                  session_user_id := session_user_id w;
                  screen := screen w |} in
      show (st_success ("Total Credit: " +:+ fmt incoming +:+ "."))
        (show (st_success ("Total Debit: " +:+ fmt outgoing +:+ "."))
          (show (st_success ("Total Balance: " +:+ fmt balance +:+ "."))
            (show (st_success "Transaction logged successfully!") w)))
  | Raise e =>
      show (st_error ("Error storing transaction data: " +:+ str_exn e)) w
  end.

(** ** Password hashing

    bcrypt is a library outside the repository: the two calls the code
    makes are the operations of an interface.  [gensalt()] draws a fresh
    random salt, an input of the handler that hashes. *)

Class Bcrypt := {
  hashpw : string → string → string;  (* bcrypt.hashpw(password, salt) *)
  checkpw : string → string → bool    (* bcrypt.checkpw(password, hashed) *)
}.

(** What bcrypt is used for: a password verifies against a hash exactly
    when the hash was made from it. *)
Class BcryptIdeal (B : Bcrypt) : Prop := {
  checkpw_same : ∀ pw salt, checkpw pw (hashpw pw salt) = true;
  checkpw_other : ∀ pw pw' salt, checkpw pw' (hashpw pw salt) = true → pw' = pw
}.

Section App.
Context {B : Bcrypt}.

Definition hash_password (password salt : string) : string :=
  hashpw password salt.

Definition verify_password (stored_password entered_password : string) : bool :=
  checkpw entered_password stored_password.

(** The profile a sign-up stores, from the name, email, password and salt. *)
Definition profile_of (r : string * string * string * string) : UserProfile :=
  let '(n, e, p, s) := r in
  {| name := n; email := e; password := hash_password p s |}.

(** ** The handlers of the Register and Login buttons *)

Definition sign_up (user_id name email password salt : string) (w : World) : World :=
  match user_data w !! user_id with
  | Some _ => show (st_error "User ID already exists.") w
  | None =>
      let hashed_password := hash_password password salt in
      let users :=
        <[user_id := {| name := name; email := email; password := hashed_password |}]>
          (user_data w) in
      show (st_success "User registered successfully!")
        {| user_data := users;
           transaction_logs := transaction_logs w;
           user_data_file := save_json users;
           transaction_log_file := transaction_log_file w;
           session_user_id := session_user_id w;
           screen := screen w |}
  end.

Definition login (user_id password : string) (w : World) : World :=
  match user_data w !! user_id with
  | Some {| name := stored_name; password := stored_password |} =>
      if verify_password stored_password password then
        let w := show (st_success ("Welcome back, " +:+ stored_name +:+ "!")) w in
        {| user_data := user_data w;
           transaction_logs := transaction_logs w;
           user_data_file := user_data_file w;
           transaction_log_file := transaction_log_file w;
           session_user_id := Some user_id;
           screen := screen w |}
      else show (st_error "Invalid User ID or Password.") w
  | None => show (st_error "Invalid User ID or Password.") w
  end.

(** ** The pages *)

Definition no_data : string :=
  "No transaction data available for recommendations.".
Definition reduce_spending : string :=
  "### Recommendation: You are spending more than half of your balance. Consider budgeting your expenses.".
Definition under_control : string :=
  "### Recommendation: Your spending is under control! Keep up the good work.".

(** The literal [0.5]. *)
Definition half : Q := 1 # 2.

(** [total_debit > total_balance * 0.5]; the product is evaluated first,
    and neither operation is defined on a string. *)
Definition exceeds_half (total_debit total_balance : Scalar) : Result bool :=
  match total_balance, total_debit with
  | SInt b, SInt d => Return (negb (Qle_bool (inject_Z d) (inject_Z b * half)))
  | SStr _, _ => Raise (TypeError "can't multiply sequence by non-int of type 'float'")
  | SInt _, SStr _ =>
      Raise (TypeError "'>' not supported between instances of 'str' and 'float'")
  end.

Definition recommendations_page (user_id : string)
    (transaction_logs : gmap string (list HistoryEntry)) (w : World) : World :=
  let w := show (st_title "Recommendations") w in
  let user_transactions := default [] (transaction_logs !! user_id) in
  match last user_transactions with
  | None => show (st_warning no_data) w
  | Some latest_transaction =>
      match exceeds_half (total_debit latest_transaction)
                         (total_balance latest_transaction) with
      | Return true => show (st_markdown reduce_spending) w
      | Return false => show (st_markdown under_control) w
      | Raise e => show (st_exception e) w
      end
  end.

Definition user_profile_page (user_id : string) (user_data : gmap string UserProfile)
    (transaction_logs : gmap string (list HistoryEntry)) (w : World) : World :=
  let w := show (st_title "User Profile") w in
  let user_info := user_data !! user_id in
  let user_activities :=
    match transaction_logs !! user_id with
    | None => Return None
    | Some entries =>
        match last entries with
        | Some e => Return (Some e)
        | None => Raise (IndexError "list index out of range")
        end
    end in
  match user_activities with
  | Raise e => show (st_exception e) w
  | Return user_activities =>
      let name := default "Unknown" (name <$> user_info) in
      let email := default "Unknown" (email <$> user_info) in
      let total_balance := default (SInt 0) (total_balance <$> user_activities) in
      let total_credit := default (SInt 0) (total_credit <$> user_activities) in
      let total_debit := default (SInt 0) (total_debit <$> user_activities) in
      foldl (λ w m, show m w) w
        [ st_markdown ("## Welcome, " +:+ name +:+ "!");
          st_markdown ("### User ID: " +:+ user_id);
          st_markdown ("### Email: " +:+ email);
          st_markdown ("### Total Balance: " +:+ fmt total_balance);
          st_plotly_chart (Donut total_credit total_debit);
          st_markdown ("### Total Debit: " +:+ fmt total_debit);
          st_markdown ("### Total Credit: " +:+ fmt total_credit) ]
  end.

(** An uploaded file: its name and the frame [pd.read_csv] builds from it. *)
Record Upload := {
  upload_name : string;
  read_csv : DataFrame
}.

Definition data_analytics_page (user_id : string) (uploaded_file : option Upload)
    (now : string) (w : World) : World :=
  let w := show (st_markdown "Visualize your financial data with appealing charts.")
             (show (st_title "Smart Finance Dashboard") w) in
  match uploaded_file with
  | None => w
  | Some f =>
      if endswith (upload_name f) ".csv" then
        let data := read_csv f in
        let w := show (st_dataframe data)
                   (show (st_write "### Uploaded Data Preview")
                     (show (st_success "Data loaded successfully!") w)) in
        let w := store_transaction_data user_id data now w in
        if has_numeric_column data then show (st_plotly_chart DataChart) w
        else show (st_error "No numeric columns found for visualization.") w
      else show (st_error "Error loading file. Please check the format.") w
  end.

(** ** main

    One run of the script serves one interaction: the page chosen in the
    sidebar, the contents of its input fields and whether its button was
    pressed. *)

Inductive Interaction :=
| SignUpPage (user_id name email password : string) (pressed : bool) (salt : string)
| LoginPage (user_id password : string) (pressed : bool)
| ProfilePage
| RecommendationsPage
| DataAnalyticsPage (uploaded_file : option Upload) (now : string).

(** [if user_id:] on [st.session_state.get("user_id")] *)
Definition logged_in (w : World) : option string :=
  match session_user_id w with
  | Some user_id => if String.eqb user_id "" then None else Some user_id
  | None => None
  end.

Definition main (i : Interaction) (w : World) : World :=
  match i with
  | SignUpPage user_id name email password pressed salt =>
      let w := show (st_title "Sign Up") w in
      if pressed then sign_up user_id name email password salt w else w
  | LoginPage user_id password pressed =>
      let w := show (st_title "Login") w in
      if pressed then login user_id password w else w
  | ProfilePage =>
      match logged_in w with
      | Some user_id => user_profile_page user_id (user_data w) (transaction_logs w) w
      | None => show (st_warning "Please log in to view your profile.") w
      end
  | RecommendationsPage =>
      match logged_in w with
      | Some user_id => recommendations_page user_id (transaction_logs w) w
      | None => show (st_warning "Please log in to view recommendations.") w
      end
  | DataAnalyticsPage uploaded_file now =>
      match logged_in w with
      | Some user_id => data_analytics_page user_id uploaded_file now w
      | None => show (st_warning "Please log in to access the dashboard.") w
      end
  end.

(** A run of the script: the module-level loads, then [main]. *)
Definition script (i : Interaction) (w : World) : World :=
  main i (startup w).

(** A session: the script is run once per interaction. *)
Definition session (inputs : list Interaction) (w : World) : World :=
  foldl (λ w i, script i w) w inputs.

End App.
(** ** The rows of a ledger frame

    A frame whose direction column holds strings and whose balance column
    holds numbers is described by its rows, (direction, balance) pairs in
    input order.  Other columns may be present. *)

Abbreviation Row := (string * Z)%type.

Definition ledger (data : DataFrame) (rows : list Row) : Prop :=
  getitem data "DrCr" = Return (ObjSeries rows.*1) ∧
  getitem data "balance" = Return (IntSeries rows.*2).

(** The frame with exactly the two columns of the given rows. *)
Definition frame_of (rows : list Row) : DataFrame :=
  [("DrCr", ObjSeries rows.*1); ("balance", IntSeries rows.*2)].

Definition with_direction (v : string) (rows : list Row) : list Row :=
  filter (λ r, r.1 = v) rows.

(** Sum of balance over the rows with the given direction. *)
Definition total_of (v : string) (rows : list Row) : Z :=
  Zsum (with_direction v rows).*2.

Definition direction_ok (r : Row) : Prop := r.1 = "Cr" ∨ r.1 = "Db".

(** ** Histories

    One dictionary of histories extends another when every history of the
    first is kept, entry by entry, at the front of the same user's history
    in the second. *)

Definition extends (old new : gmap string (list HistoryEntry)) : Prop :=
  ∀ u h, old !! u = Some h → ∃ added, new !! u = Some (h ++ added).

(** The persisted history document. *)
Definition history_document (w : World) : gmap string (list HistoryEntry) :=
  default ∅ (transaction_log_file w).

(** The persisted profile document. *)
Definition profile_document (w : World) : gmap string UserProfile :=
  default ∅ (user_data_file w).

(** A world with both documents present and empty. *)
Definition blank : World :=
  {| user_data := ∅; transaction_logs := ∅;
     user_data_file := Some ∅; transaction_log_file := Some ∅;
     session_user_id := None; screen := [] |}.

(** An instance of the interface to run the handlers on: the hash is the
    password itself and checking compares. *)
Definition plain_bcrypt : Bcrypt :=
  {| hashpw pw salt := pw;
     checkpw pw hashed := String.eqb pw hashed |}.

(** ** Registrations in a session

    The sign-up that registered an identifier in a sequence of interactions
    is the first one submitted with that identifier: name, email, password
    and salt as entered then. *)
Fixpoint registration (user_id : string) (inputs : list Interaction) :
    option (string * string * string * string) :=
  match inputs with
  | [] => None
  | SignUpPage u n e p true s :: rest =>
      if String.eqb u user_id then Some (n, e, p, s) else registration user_id rest
  | _ :: rest => registration user_id rest
  end.

(** What the Login page shows when it accepts and when it rejects. *)
Definition accepted (w : World) : Prop :=
  ∃ n, screen w = [st_title "Login"; st_success ("Welcome back, " +:+ n +:+ "!")].

Definition rejected (w : World) : Prop :=
  screen w = [st_title "Login"; st_error "Invalid User ID or Password."].

(** ** Stored entries

    An entry is consistent when its three totals are what
    [analyze_transactions] returns on a frame whose records are the
    entry's transactions. *)
Definition entry_consistent (e : HistoryEntry) : Prop :=
  ∃ data,
    transactions e = to_dict_records data ∧
    analyze_transactions data = Return (total_balance e, total_credit e, total_debit e).

Definition histories_consistent (m : gmap string (list HistoryEntry)) : Prop :=
  ∀ u h, m !! u = Some h → Forall entry_consistent h.

(** The session user, when there is one, has a stored profile. *)
Definition session_user_registered (w : World) : Prop :=
  ∀ u, session_user_id w = Some u → is_Some (profile_document w !! u).

(** No stored history is an empty list. *)
Definition histories_nonempty (m : gmap string (list HistoryEntry)) : Prop :=
  ∀ u h, m !! u = Some h → h ≠ [].

(** A world with both documents present and empty and the given session
    user. *)
Definition blank_as (user_id : string) : World :=
  {| user_data := ∅; transaction_logs := ∅;
     user_data_file := Some ∅; transaction_log_file := Some ∅;
     session_user_id := Some user_id; screen := [] |}.

(** ** Facts about the pandas fragment *)

Section PandasFacts.

Lemma getitem_has_column data c s :
  getitem data c = Return s → has_column c data = true.
Proof.
  unfold has_column, columns. rewrite bool_decide_eq_true.
  induction data as [|[c' s'] data IH]; simpl; [done|].
  destruct (String.eqb_spec c' c) as [->|Hne]; intros H.
  - left.
  - right. by apply IH.
Qed.

Lemma has_column_getitem data c :
  has_column c data = true → ∃ s, getitem data c = Return s.
Proof.
  unfold has_column, columns. rewrite bool_decide_eq_true.
  induction data as [|[c' s'] data IH]; simpl.
  - by intros ?%elem_of_nil.
  - destruct (String.eqb_spec c' c) as [->|Hne]; [by eauto|].
    intros [?|Hin]%elem_of_cons; [congruence|by apply IH].
Qed.

Lemma getitem_getitem_mask data mask c :
  getitem (getitem_mask data mask) c = select_series mask <$> getitem data c.
Proof.
  induction data as [|[c' s'] data IH]; simpl; [done|].
  by destruct (String.eqb c' c).
Qed.

Lemma select_eq_str (rows : list Row) v :
  select ((λ x, String.eqb x v) <$> rows.*1) rows.*2 = (with_direction v rows).*2.
Proof.
  unfold with_direction. induction rows as [|[d b] rows IH]; simpl; [done|].
  rewrite filter_cons. simpl. destruct (String.eqb_spec d v) as [->|Hne].
  - rewrite decide_True by done. simpl. by f_equal.
  - by rewrite decide_False.
Qed.

Lemma last_cells_int xs :
  last (cells (IntSeries xs)) = SInt <$> last xs.
Proof. simpl. by rewrite fmap_last. Qed.

Lemma Zsum_nonneg (xs : list Z) : Forall (λ x, (0 ≤ x)%Z) xs → (0 ≤ Zsum xs)%Z.
Proof. induction 1; simpl; lia. Qed.

Lemma with_direction_app v (xs ys : list Row) :
  with_direction v (xs ++ ys) = with_direction v xs ++ with_direction v ys.
Proof. apply filter_app. Qed.

End PandasFacts.

(** The value [analyze_transactions] computes on a ledger frame, for every
    content of the rows (the empty ledger included). *)
Lemma analyze_ledger data rows :
  ledger data rows →
  analyze_transactions data =
    match last rows with
    | Some r => Return (SInt r.2, SInt (total_of "Cr" rows), SInt (total_of "Db" rows))
    | None => Raise (IndexError "single positional indexer is out-of-bounds")
    end.
Proof.
  intros [Hd Hb]. unfold analyze_transactions.
  rewrite (getitem_has_column _ _ _ Hd), (getitem_has_column _ _ _ Hb). simpl.
  rewrite Hd. simpl. rewrite !getitem_getitem_mask, Hb. simpl.
  rewrite !select_eq_str. unfold iloc_last. rewrite last_cells_int, fmap_last.
  destruct (last rows); reflexivity.
Qed.

Lemma ledger_frame_of rows : ledger (frame_of rows) rows.
Proof. by split. Qed.

Lemma analyze_transactions_totals_aux data (rows : list Row) (r : Row) :
  ledger data rows →
  last rows = Some r →
  analyze_transactions data =
    Return (SInt r.2, SInt (total_of "Cr" rows), SInt (total_of "Db" rows)).
Proof. intros Hl Hr. by rewrite (analyze_ledger _ _ Hl), Hr. Qed.

Lemma total_of_nonneg v (rows : list Row) :
  Forall (λ x : Row, 0 ≤ x.2) rows → 0 ≤ total_of v rows.
Proof.
  intros H. apply Zsum_nonneg. unfold with_direction.
  induction H as [|[d b] rows Hb H IH]; [constructor|].
  rewrite filter_cons. case_decide; [constructor|]; done.
Qed.

Lemma select_nil {A} (mask : list bool) : select mask (@nil A) = [].
Proof. by destruct mask. Qed.

Lemma total_of_skip v (pre post : list Row) (x : Row) :
  x.1 ≠ v → total_of v (pre ++ x :: post) = total_of v (pre ++ post).
Proof.
  intros Hne. unfold total_of. rewrite !with_direction_app. do 2 f_equal.
  unfold with_direction. rewrite filter_cons. by rewrite decide_False.
Qed.

(** ** Aggregation *)






(** C3, as stated, fails: on the frame with both columns and no row the
    last-row lookup raises IndexError, which is not the ValueError that
    reports a schema fault. *)
Lemma empty_frame_index_error :
  let data := frame_of [] in
  has_column "DrCr" data = true ∧ has_column "balance" data = true ∧
  nrows data = 0%nat ∧
  analyze_transactions data =
    Raise (IndexError "single positional indexer is out-of-bounds") ∧
  ∀ msg, analyze_transactions data ≠ Raise (ValueError msg).
Proof. simpl. repeat split; done. Qed.

(** C3, amended.  On every frame that has both columns and no row, the
    sums for total credit and total debit are both zero and
    [analyze_transactions] fails at the last-row lookup, with IndexError. *)
Theorem analyze_transactions_empty data (d b : Series) :
  getitem data "DrCr" = Return d →
  getitem data "balance" = Return b →
  size b = 0%nat →
  sum <$> getitem (getitem_mask data (eq_str d "Cr")) "balance" = Return (SInt 0) ∧
  sum <$> getitem (getitem_mask data (eq_str d "Db")) "balance" = Return (SInt 0) ∧
  analyze_transactions data =
    Raise (IndexError "single positional indexer is out-of-bounds").
Proof.
  intros Hd Hb Hsize. unfold analyze_transactions.
  rewrite (getitem_has_column _ _ _ Hd), (getitem_has_column _ _ _ Hb).
  simpl. rewrite Hd. simpl. rewrite !getitem_getitem_mask, Hb.
  destruct b as [[|z zs]|[|s ss]]; try discriminate Hsize; simpl;
    rewrite !select_nil; done.
Qed.

Lemma analyze_transactions_empty_witness :
  analyze_transactions [("DrCr", ObjSeries []); ("balance", ObjSeries [])] =
    Raise (IndexError "single positional indexer is out-of-bounds").
Proof.
  apply (analyze_transactions_empty _ (ObjSeries []) (ObjSeries [])); reflexivity.
Defined.



(** ** Recording history *)

Lemma store_transaction_data_raise user_id data now w e :
  analyze_transactions data = Raise e →
  store_transaction_data user_id data now w =
    show (st_error ("Error storing transaction data: " +:+ str_exn e)) w.
Proof. intros H. unfold store_transaction_data. by rewrite H. Qed.

Lemma store_transaction_data_return user_id data now w r :
  analyze_transactions data = Return r →
  let w' := store_transaction_data user_id data now w in
  transaction_logs w' =
    <[user_id := default [] (transaction_logs w !! user_id) ++ [new_entry data r now]]>
      (transaction_logs w) ∧
  transaction_log_file w' = Some (transaction_logs w') ∧
  user_data w' = user_data w ∧
  user_data_file w' = user_data_file w ∧
  session_user_id w' = session_user_id w.
Proof.
  intros H. unfold store_transaction_data. rewrite H.
  destruct r as [[balance incoming] outgoing]. simpl.
  destruct (transaction_logs w !! user_id) as [h|] eqn:E; simpl.
  - by rewrite E.
  - by rewrite lookup_insert_eq, insert_insert_eq.
Qed.

(** C4.  When the aggregation of the uploaded rows fails,
    [store_transaction_data] appends nothing: the history of every user,
    in memory and in the persisted document, is as before, and so are the
    profiles; the failure is only displayed. *)
Theorem store_transaction_data_failure user_id data now w e :
  analyze_transactions data = Raise e →
  let w' := store_transaction_data user_id data now w in
  transaction_logs w' = transaction_logs w ∧
  transaction_log_file w' = transaction_log_file w ∧
  user_data w' = user_data w ∧
  user_data_file w' = user_data_file w ∧
  screen w' = screen w ++ [st_error ("Error storing transaction data: " +:+ str_exn e)].
Proof. intros H. simpl. by rewrite (store_transaction_data_raise _ _ _ _ _ H). Qed.

Lemma store_transaction_data_failure_witness :
  let w' := store_transaction_data "ann" (frame_of []) "2024-01-01T00:00:00" blank in
  transaction_logs w' = ∅ ∧
  transaction_log_file w' = Some ∅ ∧
  user_data w' = ∅ ∧
  user_data_file w' = Some ∅ ∧
  screen w' =
    [st_error "Error storing transaction data: single positional indexer is out-of-bounds"].
Proof.
  apply (store_transaction_data_failure "ann" (frame_of []) "2024-01-01T00:00:00" blank
           (IndexError "single positional indexer is out-of-bounds")).
  reflexivity.
Defined.

(** C9.  On every frame that lacks the direction column or the balance
    column, [analyze_transactions] raises ValueError with the message that
    both columns are required; [store_transaction_data] then only displays
    that message, once, and changes nothing else. *)
Theorem analyze_transactions_missing_column data :
  has_column "DrCr" data = false ∨ has_column "balance" data = false →
  analyze_transactions data =
    Raise (ValueError "Dataset must contain 'DrCr' and 'balance' columns.") ∧
  ∀ user_id now w,
    store_transaction_data user_id data now w =
      show (st_error
        "Error storing transaction data: Dataset must contain 'DrCr' and 'balance' columns.")
        w.
Proof.
  intros H.
  assert (analyze_transactions data = Raise (ValueError columns_missing)) as Ha.
  { unfold analyze_transactions. by destruct H as [-> | ->]; [|rewrite andb_false_r]. }
  split; [done|]. intros. by rewrite (store_transaction_data_raise _ _ _ _ _ Ha).
Qed.

(** A frame without the direction column. *)
Lemma analyze_transactions_missing_column_witness :
  analyze_transactions [("date", ObjSeries ["2024-01-01"]); ("balance", IntSeries [10])] =
    Raise (ValueError "Dataset must contain 'DrCr' and 'balance' columns.") ∧
  ∀ user_id now w,
    store_transaction_data user_id
      [("date", ObjSeries ["2024-01-01"]); ("balance", IntSeries [10])] now w =
      show (st_error
        "Error storing transaction data: Dataset must contain 'DrCr' and 'balance' columns.")
        w.
Proof.
  apply (analyze_transactions_missing_column
           [("date", ObjSeries ["2024-01-01"]); ("balance", IntSeries [10])]).
  left. reflexivity.
Defined.

(** *** Histories only grow *)

Lemma extends_refl m : extends m m.
Proof. intros u h H. exists []. by rewrite app_nil_r. Qed.

Lemma extends_trans m1 m2 m3 : extends m1 m2 → extends m2 m3 → extends m1 m3.
Proof.
  intros H12 H23 u h H. destruct (H12 u h H) as [a Ha].
  destruct (H23 u _ Ha) as [b Hb]. exists (a ++ b). by rewrite app_assoc.
Qed.

Lemma extends_append m u added :
  extends m (<[u := default [] (m !! u) ++ added]> m).
Proof.
  intros v h H. destruct (decide (u = v)) as [->|Hne].
  - exists added. by rewrite lookup_insert_eq, H.
  - exists []. by rewrite lookup_insert_ne, app_nil_r.
Qed.

Lemma store_transaction_data_extends user_id data now w :
  transaction_log_file w = Some (transaction_logs w) →
  let w' := store_transaction_data user_id data now w in
  transaction_log_file w' = Some (transaction_logs w') ∧
  extends (transaction_logs w) (transaction_logs w').
Proof.
  intros Hinv. destruct (analyze_transactions data) as [r|e] eqn:E.
  - destruct (store_transaction_data_return user_id data now w r E) as (Hl & Hf & _).
    simpl. split; [done|]. rewrite Hl. apply extends_append.
  - simpl. rewrite (store_transaction_data_raise _ _ _ _ _ E). simpl.
    split; [done|apply extends_refl].
Qed.

Section Histories.
Context {B : Bcrypt}.

Lemma show_all_logs ms w :
  transaction_logs (foldl (λ w m, show m w) w ms) = transaction_logs w ∧
  transaction_log_file (foldl (λ w m, show m w) w ms) = transaction_log_file w.
Proof.
  revert w. induction ms as [|m ms IH]; intros w; [done|].
  simpl. by destruct (IH (show m w)) as [-> ->].
Qed.

Lemma main_extends i w :
  transaction_log_file w = Some (transaction_logs w) →
  transaction_log_file (main i w) = Some (transaction_logs (main i w)) ∧
  extends (transaction_logs w) (transaction_logs (main i w)).
Proof.
  intros Hinv. destruct i as [u n e p pressed salt|u p pressed| | |f now]; simpl.
  - destruct pressed; [|split; [done|apply extends_refl]].
    unfold sign_up. simpl. destruct (user_data w !! u); simpl;
      (split; [done|apply extends_refl]).
  - destruct pressed; [|split; [done|apply extends_refl]].
    unfold login. simpl. destruct (user_data w !! u) as [[sn se sp]|]; simpl;
      [destruct (verify_password sp p); simpl|]; (split; [done|apply extends_refl]).
  - destruct (logged_in w) as [u|]; [|split; [done|apply extends_refl]].
    unfold user_profile_page.
    destruct (transaction_logs w !! u) as [h|]; [destruct (last h)|];
      try (split; [done|apply extends_refl]);
      match goal with |- context [foldl _ ?w0 ?ms] =>
        destruct (show_all_logs ms w0) as [-> ->] end;
      (split; [done|apply extends_refl]).
  - destruct (logged_in w) as [u|]; [|split; [done|apply extends_refl]].
    unfold recommendations_page.
    destruct (last _) as [l|]; [|split; [done|apply extends_refl]].
    destruct (exceeds_half _ _) as [[]|]; (split; [done|apply extends_refl]).
  - destruct (logged_in w) as [u|]; [|split; [done|apply extends_refl]].
    unfold data_analytics_page. destruct f as [f|]; [|split; [done|apply extends_refl]].
    destruct (endswith _ _); [|split; [done|apply extends_refl]].
    match goal with |- context [store_transaction_data ?a ?d ?n ?w0] =>
      destruct (store_transaction_data_extends a d n w0 Hinv) as [Hf He] end.
    destruct (has_numeric_column _); (split; [exact Hf|exact He]).
Qed.

Lemma script_extends i w :
  extends (history_document w) (history_document (script i w)).
Proof.
  unfold script, history_document.
  destruct (main_extends i (startup w)) as [Hf He].
  { unfold startup. by destruct (user_data_file w), (transaction_log_file w). }
  rewrite Hf. simpl.
  replace (transaction_logs (startup w)) with (default ∅ (transaction_log_file w)) in He;
    [done|].
  unfold startup. by destruct (user_data_file w), (transaction_log_file w).
Qed.

Lemma session_extends inputs w :
  extends (history_document w) (history_document (session inputs w)).
Proof.
  revert w. induction inputs as [|i inputs IH]; intros w; [apply extends_refl|].
  simpl. eapply extends_trans; [apply script_extends|apply IH].
Qed.


End Histories.


(** ** Credentials *)

Section Credentials.
Context {B : Bcrypt}.


End Credentials.


(** *** Logging in *)

Section Login.
Context {B : Bcrypt}.

Lemma show_all_profiles ms w :
  user_data (foldl (λ w m, show m w) w ms) = user_data w ∧
  user_data_file (foldl (λ w m, show m w) w ms) = user_data_file w.
Proof.
  revert w. induction ms as [|m ms IH]; intros w; [done|].
  simpl. by destruct (IH (show m w)) as [-> ->].
Qed.

Lemma store_transaction_data_profiles user_id data now w :
  user_data (store_transaction_data user_id data now w) = user_data w ∧
  user_data_file (store_transaction_data user_id data now w) = user_data_file w.
Proof.
  destruct (analyze_transactions data) as [r|e] eqn:E.
  - by destruct (store_transaction_data_return user_id data now w r E) as (_ & _ & -> & -> & _).
  - by rewrite (store_transaction_data_raise _ _ _ _ _ E).
Qed.

(** The profiles after one run of [main], when the document mirrors the
    dictionary. *)
Lemma main_profiles i w :
  user_data_file w = Some (user_data w) →
  user_data_file (main i w) = Some (user_data (main i w)) ∧
  user_data (main i w) =
    match i with
    | SignUpPage u n e p true s =>
        match user_data w !! u with
        | Some _ => user_data w
        | None => <[u := profile_of (n, e, p, s)]> (user_data w)
        end
    | _ => user_data w
    end.
Proof.
  intros Hinv. destruct i as [u n e p pressed salt|u p pressed| | |f now]; simpl.
  - destruct pressed; [|done]. unfold sign_up. simpl.
    by destruct (user_data w !! u).
  - destruct pressed; [|done]. unfold login. simpl.
    destruct (user_data w !! u) as [[sn se sp]|]; [|done].
    by destruct (verify_password sp p).
  - destruct (logged_in w) as [u|]; [|done]. unfold user_profile_page.
    destruct (transaction_logs w !! u) as [h|]; [destruct (last h)|]; try done;
      match goal with |- context [foldl _ ?w0 ?ms] =>
        destruct (show_all_profiles ms w0) as [-> ->] end; done.
  - destruct (logged_in w) as [u|]; [|done]. unfold recommendations_page.
    destruct (last _) as [l|]; [|done]. by destruct (exceeds_half _ _) as [[]|].
  - destruct (logged_in w) as [u|]; [|done]. unfold data_analytics_page.
    destruct f as [f|]; [|done]. destruct (endswith _ _); [|done].
    match goal with |- context [store_transaction_data ?a ?d ?n ?w0] =>
      destruct (store_transaction_data_profiles a d n w0) as [Hu Hf] end.
    destruct (has_numeric_column _); simpl; by rewrite Hu, Hf.
Qed.

Lemma startup_profiles w :
  user_data (startup w) = profile_document w ∧
  user_data_file (startup w) = Some (profile_document w) ∧
  session_user_id (startup w) = session_user_id w ∧
  screen (startup w) = [].
Proof.
  unfold startup, profile_document.
  by destruct (user_data_file w), (transaction_log_file w).
Qed.

Lemma script_profiles i w :
  profile_document (script i w) =
    match i with
    | SignUpPage u n e p true s =>
        match profile_document w !! u with
        | Some _ => profile_document w
        | None => <[u := profile_of (n, e, p, s)]> (profile_document w)
        end
    | _ => profile_document w
    end.
Proof.
  destruct (startup_profiles w) as (Hu & Hf & _).
  destruct (main_profiles i (startup w)) as [Hf' Hu']; [by rewrite Hf, Hu|].
  unfold script. unfold profile_document at 1. rewrite Hf'. simpl.
  rewrite Hu'. by rewrite Hu.
Qed.

(** The stored profile of an identifier after a session. *)
Lemma session_profiles inputs w user_id :
  profile_document (session inputs w) !! user_id =
    match profile_document w !! user_id with
    | Some p => Some p
    | None => profile_of <$> registration user_id inputs
    end.
Proof.
  revert w. induction inputs as [|i inputs IH]; intros w.
  - simpl. by destruct (profile_document w !! user_id).
  - change (session (i :: inputs) w) with (session inputs (script i w)).
    rewrite IH, script_profiles.
    destruct i as [u n e p [] salt|u p pressed| | |f now]; simpl; try done.
    destruct (String.eqb_spec u user_id) as [->|Hne].
    + destruct (profile_document w !! user_id) as [q|] eqn:E; [by rewrite E|].
      by rewrite lookup_insert_eq.
    + destruct (profile_document w !! u); [done|]. by rewrite lookup_insert_ne.
Qed.


End Login.

Lemma plain_bcrypt_ideal : BcryptIdeal plain_bcrypt.
Proof.
  split; simpl.
  - intros pw _. apply String.eqb_refl.
  - intros pw pw' _ H. by apply String.eqb_eq in H.
Qed.


(** The second registration's password is not accepted. *)
Example login_with_later_password :
  rejected
    (script (B := plain_bcrypt) (LoginPage "ann" "guess" true)
       (session (B := plain_bcrypt)
          [SignUpPage "ann" "Ann" "ann@example.org" "secret" true "salt1";
           SignUpPage "ann" "Eve" "eve@example.org" "guess" true "salt2"] blank)).
Proof. reflexivity. Qed.

(** ** Recommendations *)

Lemma half_lt (b d : Z) : (inject_Z b * half < inject_Z d)%Q ↔ b < 2 * d.
Proof. unfold Qlt, half. simpl. lia. Qed.

Lemma exceeds_half_int (b d : Z) :
  exceeds_half (SInt d) (SInt b) = Return (bool_decide (b < 2 * d)).
Proof.
  unfold exceeds_half. f_equal.
  destruct (Qle_bool (inject_Z d) (inject_Z b * half)) eqn:E; simpl.
  - rewrite bool_decide_eq_false_2; [done|]. rewrite <- half_lt.
    by apply Qle_not_lt, Qle_bool_iff.
  - rewrite bool_decide_eq_true_2; [done|]. rewrite <- half_lt.
    apply Qnot_le_lt. intros H%Qle_bool_iff. congruence.
Qed.



(** Total debit 40 against total balance 100: under control. *)
Example recommendations_page_40_of_100 :
  let e := {| transactions := []; total_balance := SInt 100; total_credit := SInt 0;
              total_debit := SInt 40; timestamp := "2024-01-01T09:00:00" |} in
  screen (recommendations_page "ann" {["ann" := [e]]} blank) =
    [st_title "Recommendations"; st_markdown under_control].
Proof. reflexivity. Qed.

(** Exactly half is not more than half. *)
Example recommendations_page_50_of_100 :
  exceeds_half (SInt 50) (SInt 100) = Return false.
Proof. reflexivity. Qed.

(** ** Further properties of the aggregation *)

Lemma iloc_last_return (b : Series) :
  (∃ v, iloc_last b = Return v) ↔ size b ≠ 0%nat.
Proof.
  unfold iloc_last, size. destruct (last (cells b)) as [v|] eqn:E.
  - split; [|by eauto]. intros _ Hlen. apply length_zero_iff_nil in Hlen.
    by rewrite Hlen in E.
  - split; [by intros [v ?]|]. intros H. apply last_None in E. by rewrite E in H.
Qed.

Lemma analyze_transactions_present data (d b : Series) :
  getitem data "DrCr" = Return d →
  getitem data "balance" = Return b →
  analyze_transactions data =
    total_balance ← iloc_last b;
    mret (total_balance, sum (select_series (eq_str d "Cr") b),
          sum (select_series (eq_str d "Db") b)).
Proof.
  intros Hd Hb. unfold analyze_transactions.
  rewrite (getitem_has_column _ _ _ Hd), (getitem_has_column _ _ _ Hb).
  simpl. rewrite Hd. simpl. by rewrite !getitem_getitem_mask, Hb.
Qed.


Lemma total_of_partition (rows : list Row) :
  Forall direction_ok rows →
  total_of "Cr" rows + total_of "Db" rows = Zsum rows.*2.
Proof.
  unfold total_of, with_direction. induction 1 as [|[d b] rows Hd _ IH]; [done|].
  rewrite !filter_cons. destruct Hd as [Hd|Hd]; simpl in Hd; subst d.
  - rewrite decide_True, decide_False by done.
    rewrite !fmap_cons. change (Zsum (?x :: ?xs)) with (x + Zsum xs). simpl snd. lia.
  - rewrite decide_False, decide_True by done.
    rewrite !fmap_cons. change (Zsum (?x :: ?xs)) with (x + Zsum xs). simpl snd. lia.
Qed.



(** ** Runs of the script *)

Lemma startup_history w :
  transaction_logs (startup w) = history_document w ∧
  transaction_log_file (startup w) = Some (history_document w) ∧
  logged_in (startup w) = logged_in w.
Proof.
  unfold startup, history_document, logged_in.
  by destruct (user_data_file w), (transaction_log_file w).
Qed.

Lemma show_all_session ms w :
  session_user_id (foldl (λ w m, show m w) w ms) = session_user_id w.
Proof.
  revert w. induction ms as [|m ms IH]; intros w; [done|].
  simpl. by rewrite IH.
Qed.

Lemma store_transaction_data_session user_id data now w :
  session_user_id (store_transaction_data user_id data now w) = session_user_id w.
Proof.
  destruct (analyze_transactions data) as [r|e] eqn:E.
  - by destruct (store_transaction_data_return user_id data now w r E) as (_ & _ & _ & _ & ->).
  - by rewrite (store_transaction_data_raise _ _ _ _ _ E).
Qed.

Section Runs.
Context {B : Bcrypt}.

(** The histories after one run of [main]. *)
Lemma main_logs i w :
  transaction_logs (main i w) =
    match i, logged_in w with
    | DataAnalyticsPage (Some f) now, Some u =>
        if endswith (upload_name f) ".csv" then
          match analyze_transactions (read_csv f) with
          | Return r =>
              <[u := default [] (transaction_logs w !! u) ++ [new_entry (read_csv f) r now]]>
                (transaction_logs w)
          | Raise _ => transaction_logs w
          end
        else transaction_logs w
    | _, _ => transaction_logs w
    end.
Proof.
  destruct i as [u n e p pressed salt|u p pressed| | |f now]; simpl.
  - destruct (logged_in w); destruct pressed; try done;
      unfold sign_up; simpl; by destruct (user_data w !! u).
  - destruct (logged_in w); destruct pressed; try done;
      unfold login; simpl; (destruct (user_data w !! u) as [[sn se sp]|]; [|done]);
      by destruct (verify_password sp p).
  - destruct (logged_in w) as [u|]; [|done]. unfold user_profile_page.
    destruct (transaction_logs w !! u) as [h|]; [destruct (last h)|]; try done;
      match goal with |- context [foldl _ ?w0 ?ms] =>
        destruct (show_all_logs ms w0) as [-> _] end; done.
  - destruct (logged_in w) as [u|]; [|done]. unfold recommendations_page.
    destruct (last _) as [l|]; [|done]. by destruct (exceeds_half _ _) as [[]|].
  - destruct (logged_in w) as [u|]; [|by destruct f]. unfold data_analytics_page.
    destruct f as [f|]; [|done]. destruct (endswith _ _); [|done].
    destruct (analyze_transactions (read_csv f)) as [r|e] eqn:E.
    + match goal with |- context [store_transaction_data ?a ?d ?n ?w0] =>
        destruct (store_transaction_data_return a d n w0 r E) as (Hl & _) end.
      destruct (has_numeric_column _); exact Hl.
    + match goal with |- context [store_transaction_data ?a ?d ?n ?w0] =>
        rewrite (store_transaction_data_raise a d n w0 e E) end.
      by destruct (has_numeric_column _).
Qed.

(** The session user after one run of [main]. *)
Lemma main_session i w :
  session_user_id (main i w) =
    match i with
    | LoginPage u p true =>
        match user_data w !! u with
        | Some profile =>
            if verify_password (password profile) p then Some u else session_user_id w
        | None => session_user_id w
        end
    | _ => session_user_id w
    end.
Proof.
  destruct i as [u n e p pressed salt|u p pressed| | |f now]; simpl.
  - destruct pressed; [|done]. unfold sign_up. simpl. by destruct (user_data w !! u).
  - destruct pressed; [|done]. unfold login. simpl.
    destruct (user_data w !! u) as [[sn se sp]|]; [|done]. simpl.
    by destruct (verify_password sp p).
  - destruct (logged_in w) as [u|]; [|done]. unfold user_profile_page.
    destruct (transaction_logs w !! u) as [h|]; [destruct (last h)|]; try done;
      by rewrite show_all_session.
  - destruct (logged_in w) as [u|]; [|done]. unfold recommendations_page.
    destruct (last _) as [l|]; [|done]. by destruct (exceeds_half _ _) as [[]|].
  - destruct (logged_in w) as [u|]; [|done]. unfold data_analytics_page.
    destruct f as [f|]; [|done]. destruct (endswith _ _); [|done].
    destruct (has_numeric_column _); simpl; by rewrite store_transaction_data_session.
Qed.

(** The persisted histories after one run of the script. *)
Lemma script_history i w :
  history_document (script i w) =
    match i, logged_in w with
    | DataAnalyticsPage (Some f) now, Some u =>
        if endswith (upload_name f) ".csv" then
          match analyze_transactions (read_csv f) with
          | Return r =>
              <[u := default [] (history_document w !! u) ++ [new_entry (read_csv f) r now]]>
                (history_document w)
          | Raise _ => history_document w
          end
        else history_document w
    | _, _ => history_document w
    end.
Proof.
  destruct (startup_history w) as (Hl & Hf & Hin).
  destruct (main_extends i (startup w)) as [Hf' _]; [by rewrite Hf, Hl|].
  unfold script. unfold history_document at 1. rewrite Hf'. simpl.
  by rewrite main_logs, Hin, Hl.
Qed.

Lemma script_session i w :
  session_user_id (script i w) =
    match i with
    | LoginPage u p true =>
        match profile_document w !! u with
        | Some profile =>
            if verify_password (password profile) p then Some u else session_user_id w
        | None => session_user_id w
        end
    | _ => session_user_id w
    end.
Proof.
  destruct (startup_profiles w) as (Hu & _ & Hs & _).
  unfold script. by rewrite main_session, Hu, Hs.
Qed.

End Runs.

Section RunProperties.
Context {B : Bcrypt}.




(** X6.  An uploaded file whose name does not end in [.csv] is not read:
    the page reports a loading error and no document changes. *)
Theorem upload_not_csv (f : Upload) now w u :
  logged_in w = Some u →
  endswith (upload_name f) ".csv" = false →
  let w' := script (DataAnalyticsPage (Some f) now) w in
  screen w' =
    [st_title "Smart Finance Dashboard";
     st_markdown "Visualize your financial data with appealing charts.";
     st_error "Error loading file. Please check the format."] ∧
  history_document w' = history_document w ∧
  profile_document w' = profile_document w.
Proof.
  intros Hin Hcsv w'. unfold w'.
  rewrite script_history, script_profiles, Hin, Hcsv. split; [|done].
  destruct (startup_history w) as (_ & _ & Hin').
  destruct (startup_profiles w) as (_ & _ & _ & Hscr).
  unfold script. simpl. rewrite Hin', Hin. unfold data_analytics_page.
  rewrite Hcsv. simpl. by rewrite Hscr.
Qed.

(** X7.  Without a session user, and also when the session user is the
    empty identifier, the Profile, Recommendations and Data Analytics pages
    show only their please-log-in warning, and an upload stores nothing. *)
Theorem gated_pages_require_login w :
  session_user_id w = None ∨ session_user_id w = Some "" →
  screen (script ProfilePage w) = [st_warning "Please log in to view your profile."] ∧
  screen (script RecommendationsPage w) =
    [st_warning "Please log in to view recommendations."] ∧
  ∀ f now,
    screen (script (DataAnalyticsPage f now) w) =
      [st_warning "Please log in to access the dashboard."] ∧
    history_document (script (DataAnalyticsPage f now) w) = history_document w.
Proof.
  intros H.
  assert (logged_in w = None) as Hout
    by (unfold logged_in; by destruct H as [-> | ->]).
  destruct (startup_history w) as (_ & _ & Hin').
  destruct (startup_profiles w) as (_ & _ & _ & Hscr).
  split; [|split].
  - unfold script. simpl. rewrite Hin', Hout. simpl. by rewrite Hscr.
  - unfold script. simpl. rewrite Hin', Hout. simpl. by rewrite Hscr.
  - intros f now. split.
    + unfold script. simpl. rewrite Hin', Hout. simpl. by rewrite Hscr.
    + rewrite script_history, Hout. by destruct f.
Qed.

End RunProperties.



Lemma upload_not_csv_witness :
  let w := {| user_data := ∅; transaction_logs := ∅;
              user_data_file := Some ∅; transaction_log_file := Some ∅;
              session_user_id := Some "ann"; screen := [] |} in
  let f := {| upload_name := "may.pdf"; read_csv := frame_of [("Cr", 100)] |} in
  history_document (script (B := plain_bcrypt) (DataAnalyticsPage (Some f) "2024-06-01T10:00:00") w)
    = history_document w.
Proof.
  intros w f.
  refine (proj1 (proj2 (upload_not_csv (B := plain_bcrypt) f "2024-06-01T10:00:00" w "ann" _ _)));
    reflexivity.
Defined.

(** The empty identifier can be registered and logged in with, and is then
    still turned away by the pages. *)
Lemma gated_pages_require_login_witness :
  let w := session (B := plain_bcrypt)
             [SignUpPage "" "Nobody" "n@example.org" "pw" true "salt";
              LoginPage "" "pw" true] blank in
  session_user_id w = Some "" ∧
  screen (script (B := plain_bcrypt) ProfilePage w) =
    [st_warning "Please log in to view your profile."].
Proof.
  intros w. split; [reflexivity|].
  refine (proj1 (gated_pages_require_login (B := plain_bcrypt) w _)).
  right. reflexivity.
Defined.

(** ** Sessions *)

Lemma new_entry_consistent data r now :
  analyze_transactions data = Return r → entry_consistent (new_entry data r now).
Proof. intros H. exists data. by destruct r as [[tb tc] td]. Qed.

Section SessionProperties.
Context {B : Bcrypt}.

Lemma script_profiles_keep i w u p :
  profile_document w !! u = Some p → profile_document (script i w) !! u = Some p.
Proof.
  intros H. rewrite script_profiles.
  destruct i as [u' n e pw [] s|? ? ?| | |? ?]; try done.
  destruct (profile_document w !! u') eqn:E; [done|].
  rewrite lookup_insert_ne; [done|]. congruence.
Qed.

(** X8.  A stored profile is never changed or removed: whatever
    interactions follow, the identifier keeps the name, email and password
    hash it was stored with. *)
Theorem session_profiles_persist inputs w u p :
  profile_document w !! u = Some p →
  profile_document (session inputs w) !! u = Some p.
Proof.
  revert w. induction inputs as [|i inputs IH]; intros w H; [done|].
  apply (IH (script i w)). by apply script_profiles_keep.
Qed.

(** X9.  The session user always has a stored profile: if this holds at
    the start of a sequence of interactions, it holds at its end. *)
Theorem session_user_stays_registered inputs w :
  session_user_registered w →
  session_user_registered (session inputs w).
Proof.
  revert w. induction inputs as [|i inputs IH]; intros w H; [done|].
  apply (IH (script i w)). intros u. rewrite script_session.
  assert (∀ v, session_user_id w = Some v →
               is_Some (profile_document (script i w) !! v)) as Hold.
  { intros v Hv. destruct (H v Hv) as [p Hp]. exists p. by apply script_profiles_keep. }
  destruct i as [? ? ? ? ? ?|u' pw []| | |? ?]; try apply Hold.
  destruct (profile_document w !! u') as [profile|] eqn:E; [|apply Hold].
  destruct (verify_password (password profile) pw); [|apply Hold].
  intros [= <-]. exists profile. by apply script_profiles_keep.
Qed.

(** X10.  There is no way out of a session: once a session user is set,
    a session user is set after every further interaction. *)
Theorem session_never_logs_out inputs w :
  is_Some (session_user_id w) →
  is_Some (session_user_id (session inputs w)).
Proof.
  revert w. induction inputs as [|i inputs IH]; intros w H; [done|].
  apply (IH (script i w)). rewrite script_session.
  destruct i as [? ? ? ? ? ?|u' pw []| | |? ?]; try done.
  destruct (profile_document w !! u') as [profile|]; [|done].
  by destruct (verify_password (password profile) pw).
Qed.

Lemma script_histories_consistent i w :
  histories_consistent (history_document w) →
  histories_consistent (history_document (script i w)).
Proof.
  intros H. rewrite script_history.
  destruct i as [? ? ? ? ? ?|? ? ?| | |[f|] now]; try done.
  destruct (logged_in w) as [u|]; [|done].
  destruct (endswith _ _); [|done].
  destruct (analyze_transactions (read_csv f)) as [r|e] eqn:E; [|done].
  intros v h. destruct (decide (u = v)) as [<-|Hne].
  - rewrite lookup_insert_eq. intros [= <-]. apply Forall_app. split.
    + destruct (history_document w !! u) as [old|] eqn:Eo; [by apply (H u)|constructor].
    + constructor; [by apply new_entry_consistent|constructor].
  - rewrite lookup_insert_ne by done. apply H.
Qed.


End SessionProperties.

Lemma session_profiles_persist_witness :
  let w := session (B := plain_bcrypt)
             [SignUpPage "ann" "Ann" "ann@example.org" "secret" true "salt1"] blank in
  profile_document
    (session (B := plain_bcrypt)
       [SignUpPage "ann" "Eve" "eve@example.org" "guess" true "salt2";
        LoginPage "ann" "secret" true] w) !! "ann" =
    Some {| name := "Ann"; email := "ann@example.org";
            password := hash_password (B := plain_bcrypt) "secret" "salt1" |}.
Proof.
  intros w.
  apply (session_profiles_persist (B := plain_bcrypt)
           [SignUpPage "ann" "Eve" "eve@example.org" "guess" true "salt2";
            LoginPage "ann" "secret" true] w "ann").
  reflexivity.
Defined.

Lemma session_user_stays_registered_witness :
  session_user_registered
    (session (B := plain_bcrypt)
       [SignUpPage "ann" "Ann" "ann@example.org" "secret" true "salt1";
        LoginPage "ann" "secret" true] blank).
Proof.
  apply (session_user_stays_registered (B := plain_bcrypt)).
  intros u H. discriminate H.
Defined.

Lemma session_never_logs_out_witness :
  is_Some (session_user_id
    (session (B := plain_bcrypt)
       [LoginPage "bob" "wrong" true; RecommendationsPage; ProfilePage] (blank_as "ann"))).
Proof.
  apply (session_never_logs_out (B := plain_bcrypt)). exists "ann". reflexivity.
Defined.


(** ** From an upload to the pages *)

Lemma show_all_screen ms w :
  screen (foldl (λ w m, show m w) w ms) = screen w ++ ms.
Proof.
  revert w. induction ms as [|m ms IH]; intros w; simpl.
  - by rewrite app_nil_r.
  - rewrite IH. simpl. by rewrite <- app_assoc.
Qed.

(** Closes a goal [m ∉ [m1; ...; mn]] whose widgets differ in their
    constructor. *)
Ltac not_shown :=
  let Hin := fresh "Hin" in
  intros Hin;
  repeat (apply elem_of_cons in Hin as [Hin|Hin]; [discriminate Hin|]);
  by apply elem_of_nil in Hin.

Section Pipeline.
Context {B : Bcrypt}.

Lemma script_logged_in i w u :
  logged_in w = Some u →
  (∀ v p, i ≠ LoginPage v p true) →
  logged_in (script i w) = Some u.
Proof.
  intros Hin Hi. unfold logged_in in *. rewrite script_session.
  destruct i as [? ? ? ? ? ?|v p []| | |? ?]; try done. by destruct (Hi v p).
Qed.



(** X14.  Only an upload can change the history document and only a
    submitted sign-up can change the profile document: every other
    interaction, the Profile and Recommendations pages and logins among
    them, leaves them as they were. *)
Theorem script_documents_change_only_by i w :
  ((∀ f now, i ≠ DataAnalyticsPage (Some f) now) →
     history_document (script i w) = history_document w) ∧
  ((∀ u n e p s, i ≠ SignUpPage u n e p true s) →
     profile_document (script i w) = profile_document w).
Proof.
  split; intros Hi.
  - rewrite script_history.
    destruct i as [? ? ? ? ? ?|? ? ?| | |[f|] now]; try done. by destruct (Hi f now).
  - rewrite script_profiles.
    destruct i as [u n e p [] s|? ? ?| | |? ?]; try done. by destruct (Hi u n e p s).
Qed.

Lemma script_histories_nonempty i w :
  histories_nonempty (history_document w) →
  histories_nonempty (history_document (script i w)).
Proof.
  intros H. rewrite script_history.
  destruct i as [? ? ? ? ? ?|? ? ?| | |[f|] now]; try done.
  destruct (logged_in w) as [u|]; [|done].
  destruct (endswith _ _); [|done].
  destruct (analyze_transactions (read_csv f)) as [r|e]; [|done].
  intros v h. destruct (decide (u = v)) as [<-|Hne].
  - rewrite lookup_insert_eq. intros [= <-]. by intros [_ ?]%app_eq_nil.
  - rewrite lookup_insert_ne by done. apply H.
Qed.

Lemma session_histories_nonempty inputs w :
  histories_nonempty (history_document w) →
  histories_nonempty (history_document (session inputs w)).
Proof.
  revert w. induction inputs as [|i inputs IH]; intros w H; [done|].
  apply (IH (script i w)). by apply script_histories_nonempty.
Qed.


(** X16.  A persisted history that is an empty list is treated
    differently by the two pages: the Recommendations page reports that
    there is no data, the Profile page fails at its last-entry lookup with
    IndexError. *)
Theorem empty_history_pages w u :
  logged_in w = Some u →
  history_document w !! u = Some [] →
  screen (script RecommendationsPage w) =
    [st_title "Recommendations";
     st_warning "No transaction data available for recommendations."] ∧
  screen (script ProfilePage w) =
    [st_title "User Profile"; st_exception (IndexError "list index out of range")].
Proof.
  intros Hin Hh.
  destruct (startup_history w) as (Hlogs & _ & Hin').
  destruct (startup_profiles w) as (_ & _ & _ & Hscr).
  unfold script. simpl. rewrite Hin', Hin.
  unfold recommendations_page, user_profile_page. rewrite Hlogs, Hh. simpl.
  by rewrite Hscr.
Qed.

End Pipeline.

Section Unknown.
Context {B : Bcrypt}.

(** X17.  Whatever bcrypt does, a login with an identifier that has no
    stored profile is rejected: the page shows the invalid-credentials
    error, and the session user and both documents are as before. *)
Theorem login_unknown_identifier w u p :
  profile_document w !! u = None →
  let w' := script (LoginPage u p true) w in
  screen w' = [st_title "Login"; st_error "Invalid User ID or Password."] ∧
  session_user_id w' = session_user_id w ∧
  profile_document w' = profile_document w ∧
  history_document w' = history_document w.
Proof.
  intros Hu w'. unfold w'. rewrite script_session, script_profiles, script_history, Hu.
  split; [|by destruct (logged_in w)].
  destruct (startup_profiles w) as (Hd & _ & _ & Hscr).
  unfold script. simpl. unfold login. simpl. rewrite Hd, Hu. simpl. by rewrite Hscr.
Qed.

End Unknown.



Lemma script_documents_change_only_by_witness :
  history_document (script (B := plain_bcrypt) (LoginPage "ann" "secret" true) blank) =
    history_document blank ∧
  profile_document (script (B := plain_bcrypt) (LoginPage "ann" "secret" true) blank) =
    profile_document blank.
Proof.
  destruct (script_documents_change_only_by (B := plain_bcrypt)
              (LoginPage "ann" "secret" true) blank) as [H1 H2].
  split; [apply H1|apply H2]; discriminate.
Defined.


Lemma empty_history_pages_witness :
  let w := {| user_data := ∅; transaction_logs := ∅;
              user_data_file := Some ∅;
              transaction_log_file := Some {["ann" := []]};
              session_user_id := Some "ann"; screen := [] |} in
  screen (script (B := plain_bcrypt) ProfilePage w) =
    [st_title "User Profile"; st_exception (IndexError "list index out of range")].
Proof.
  intros w.
  refine (proj2 (empty_history_pages (B := plain_bcrypt) w "ann" _ _)).
  - reflexivity.
  - apply lookup_singleton_eq.
Defined.

Lemma login_unknown_identifier_witness :
  screen (script (B := plain_bcrypt) (LoginPage "ann" "secret" true) blank) =
    [st_title "Login"; st_error "Invalid User ID or Password."].
Proof.
  refine (proj1 (login_unknown_identifier (B := plain_bcrypt) blank "ann" "secret" _)).
  reflexivity.
Defined.

